(** * Sassclub storefront server: checkout and webhook handlers

    A shallow embedding of [server.js]: the three Express route handlers
    ([GET /api/health], [POST /api/create-checkout-session],
    [POST /api/webhook]) as functions over an explicit process environment,
    a request and the Stripe SDK, together with the properties the
    storefront's specification states about them. *)

From Stdlib Require Import ZArith List String Ascii Bool Lia.
From Stdlib Require Import DecimalString.
Import ListNotations.
Local Open Scope string_scope.
Local Open Scope Z_scope.

(** ** JavaScript values *)

Module Js.

#[local] Unset Elimination Schemes.

(** The values that flow through the handlers: what [JSON.parse] produces,
    [undefined], and the built-in function objects that a property read can
    reach through [Object.prototype] (no object or array holds one).
    [JNumber z] is the integer-valued number nearest to [z]. *)
Inductive JsValue : Type :=
| JUndefined
| JNull
| JBool (b : bool)
| JNumber (z : Z)
| JString (s : string)
| JArray (xs : list JsValue)
| JObject (fields : list (string * JsValue))
| JFunction (name : string).

#[local] Set Elimination Schemes.

(** An [Error] object, of which the handlers read [message]. *)
Record JsError : Type := { message : string }.

(** How an evaluation ends. *)
Inductive Completion (A : Type) : Type :=
| Normal (a : A)
| Throw (e : JsError).
Arguments Normal {A} a.
Arguments Throw {A} e.

(** The decimal digits of a natural number. *)
Definition decimal (a : Z) : string := NilZero.string_of_int (Z.to_int a).

(** The double nearest to [a > 2^53], as mantissa and exponent
    ([2^52 <= m < 2^53], value [m * 2^e]); ties go to the even mantissa. *)
Definition nearest_double (a : Z) : Z * Z :=
  let e := Z.log2 a - 52 in
  let q := a / 2 ^ e in
  let r := a mod 2 ^ e in
  let half := 2 ^ (e - 1) in
  let m := if (half <? r) || ((r =? half) && Z.odd q) then q + 1 else q in
  if m =? 2 ^ 53 then (2 ^ 52, e + 1) else (m, e).

(** The number with the fewest significant digits, [k] upwards, that still
    reads back as the double [x], whose rounding interval is [low .. high]
    (its ends included when [inclusive]); among several, the nearest to
    [x]. *)
Fixpoint shortest (fuel : nat) (x low high : Z) (inclusive : bool)
    (digits k : Z) : Z :=
  match fuel with
  | O => x
  | S fuel' =>
      if digits <=? k then x
      else
        let scale := 10 ^ (digits - k) in
        let s_min := if inclusive then (low + scale - 1) / scale
                     else low / scale + 1 in
        let s_max := if inclusive then high / scale
                     else (high + scale - 1) / scale - 1 in
        if s_min <=? s_max then
          let s0 := x / scale in
          let twice := 2 * (x mod scale) in
          let nearest := if twice <? scale then s0
                         else if scale <? twice then s0 + 1
                         else if Z.even s0 then s0 else s0 + 1 in
          Z.max s_min (Z.min s_max nearest) * scale
        else shortest fuel' x low high inclusive digits (k + 1)
  end.

Fixpoint strip_zeros (s : string) : string :=
  match s with
  | "" => ""
  | String c rest =>
      match strip_zeros rest with
      | "" => if Ascii.eqb c "0" then "" else String c ""
      | kept => String c kept
      end
  end.

(** Up to 21 digits a number prints in full, beyond in exponent form. *)
Definition print_digits (v : Z) : string :=
  let all := decimal v in
  let n := Z.of_nat (String.length all) in
  if n <=? 21 then all
  else
    match strip_zeros all with
    | "" => all
    | String c "" => String c ("e+" ++ decimal (n - 1))
    | String c rest => String c ("." ++ rest ++ "e+" ++ decimal (n - 1))
    end.

Definition magnitude_to_string (a : Z) : string :=
  if a <=? 2 ^ 53 then decimal a
  else
    let (m, e) := nearest_double a in
    if 971 <? e then "Infinity"
    else
      let x := m * 2 ^ e in
      if x <=? 2 ^ 53 then decimal x
      else
        let up := 2 ^ (e - 1) in
        let down := if m =? 2 ^ 52 then 2 ^ (e - 2) else up in
        print_digits
          (shortest 17 x (x - down) (x + up) (Z.even m)
             (Z.of_nat (String.length (decimal x))) 1).

(** [Number::toString] on an integer-valued number: the shortest digits
    that read back as the same double. *)
Definition number_to_string (z : Z) : string :=
  if z <? 0 then "-" ++ magnitude_to_string (- z)
  else magnitude_to_string z.

(** Own-property lookup in a table of named entries. *)
Fixpoint own {A : Type} (fields : list (string * A)) (key : string)
  : option A :=
  match fields with
  | [] => None
  | (k, v) :: rest => if String.eqb k key then Some v else own rest key
  end.

(** The [TypeError] of a conversion that finds no primitive. *)
Definition cannot_convert : JsError :=
  {| message := "Cannot convert object to primitive value" |}.

(** Abstract operation [ToString], as applied by a template literal
    [`${v}`] and, as [ToPropertyKey], by a computed property read.  An
    array is joined with commas, [null] and [undefined] elements printing
    as nothing.  A plain object prints as ["[object Object]"] through the
    inherited [toString]; an own [toString] property, which out of
    [JSON.parse] is never callable, hides it, and the conversion throws.
    A built-in function prints its native source text. *)
Fixpoint ToString (v : JsValue) : Completion string :=
  match v with
  | JUndefined => Normal "undefined"
  | JNull => Normal "null"
  | JBool true => Normal "true"
  | JBool false => Normal "false"
  | JNumber z => Normal (number_to_string z)
  | JString s => Normal s
  | JArray xs =>
      (fix join (l : list JsValue) : Completion string :=
         match l with
         | [] => Normal ""
         | x :: r =>
             match match x with
                   | JUndefined | JNull => Normal ""
                   | _ => ToString x
                   end with
             | Throw e => Throw e
             | Normal here =>
                 match r with
                 | [] => Normal here
                 | _ :: _ =>
                     match join r with
                     | Throw e => Throw e
                     | Normal rest => Normal (here ++ "," ++ rest)
                     end
                 end
             end
         end) xs
  | JObject fields =>
      match own fields "toString" with
      | None => Normal "[object Object]"
      | Some _ => Throw cannot_convert
      end
  | JFunction name => Normal ("function " ++ name ++ "() { [native code] }")
  end.

(** The text of a value whose conversion completes. *)
Definition text (v : JsValue) : string :=
  match ToString v with
  | Normal s => s
  | Throw _ => ""
  end.

(** What every ordinary object inherits.  [__proto__] reads as
    [Object.prototype] itself, which is shown here by an object without
    own fields: only its [ToString] is ever observed. *)
Definition Object_prototype : list (string * JsValue) :=
  [ ("constructor", JFunction "Object");
    ("__defineGetter__", JFunction "__defineGetter__");
    ("__defineSetter__", JFunction "__defineSetter__");
    ("hasOwnProperty", JFunction "hasOwnProperty");
    ("__lookupGetter__", JFunction "__lookupGetter__");
    ("__lookupSetter__", JFunction "__lookupSetter__");
    ("isPrototypeOf", JFunction "isPrototypeOf");
    ("propertyIsEnumerable", JFunction "propertyIsEnumerable");
    ("toString", JFunction "toString");
    ("valueOf", JFunction "valueOf");
    ("__proto__", JObject []);
    ("toLocaleString", JFunction "toLocaleString") ].

(** [Object.prototype[key]] *)
Definition inherited (key : string) : JsValue :=
  match own Object_prototype key with
  | Some v => v
  | None => JUndefined
  end.

(** [o[key]] for an ordinary object with own properties [fields]: the own
    property, else the inherited one, else [undefined]. *)
Definition get (fields : list (string * JsValue)) (key : string) : JsValue :=
  match own fields key with
  | Some v => v
  | None => inherited key
  end.

(** Truthiness of an environment variable: [process.env.X] is a string or
    [undefined], and the empty string is falsy. *)
Definition truthy (x : option string) : bool :=
  match x with
  | Some s => negb (String.eqb s "")
  | None => false
  end.

End Js.
Import Js.

(** ** Effects of a handler *)

Module Eff.

(** What a handler does besides answering: console output and the one
    network call to the payment provider. *)
Inductive Effect : Type :=
| ConsoleLog (args : list JsValue)
| ConsoleError (text : string) (error : JsError)
| SessionsCreate (params : JsValue).

(** A computation: its completion and the effects it performed, in
    order. *)
Definition M (A : Type) : Type := (Completion A * list Effect)%type.

Definition ret {A : Type} (a : A) : M A := (Normal a, []).

Definition bind {A B : Type} (m : M A) (k : A -> M B) : M B :=
  match m with
  | (Normal a, t) => let (r, t') := k a in (r, (t ++ t')%list)
  | (Throw e, t) => (Throw e, t)
  end.

Definition perform (e : Effect) : M unit := (Normal tt, [e]).

(** [try { body } catch (error) { handler error }] *)
Definition try_catch {A : Type} (body : M A) (handler : JsError -> M A)
  : M A :=
  match body with
  | (Normal a, t) => (Normal a, t)
  | (Throw e, t) => let (r, t') := handler e in (r, (t ++ t')%list)
  end.

(** An evaluation without effects, which may throw. *)
Definition evaluate {A : Type} (c : Completion A) : M A := (c, []).

(** [await] of a promise that resolved or rejected. *)
Definition settle {A : Type} (r : JsError + A) : M A :=
  match r with
  | inr a => ret a
  | inl e => (Throw e, [])
  end.

Definition console_log (args : list JsValue) : M unit :=
  perform (ConsoleLog args).

Definition console_error (text : string) (error : JsError) : M unit :=
  perform (ConsoleError text error).

Definition trace {A : Type} (m : M A) : list Effect := snd m.

Definition completion {A : Type} (m : M A) : Completion A := fst m.

(** The parameters of the provider calls in a trace. *)
Fixpoint provider_calls (t : list Effect) : list JsValue :=
  match t with
  | [] => []
  | SessionsCreate p :: rest => p :: provider_calls rest
  | _ :: rest => provider_calls rest
  end.

End Eff.
Import Eff.

Declare Scope eff_scope.
Delimit Scope eff_scope with eff.
Notation "x <- m ;; k" := (bind m (fun x => k))
  (at level 61, m at next level, right associativity) : eff_scope.
Notation "m ;; k" := (bind m (fun _ => k))
  (at level 61, right associativity) : eff_scope.
Local Open Scope eff_scope.

(** ** Express responses *)

Module Express.

Inductive Body : Type :=
| TextBody (text : string)
| JsonBody (value : JsValue).

Record Response : Type := { statusCode : Z; body : Body }.

(** The reason phrases of the [statuses] table for the codes the server
    sends; any other code prints as its number. *)
Definition status_message (code : Z) : string :=
  if code =? 200 then "OK"
  else if code =? 400 then "Bad Request"
  else if code =? 404 then "Not Found"
  else if code =? 500 then "Internal Server Error"
  else number_to_string code.

(** [res.json(value)]: status 200 unless set before. *)
Definition res_json (value : JsValue) : Response :=
  {| statusCode := 200; body := JsonBody value |}.

(** [res.status(code).json(value)] *)
Definition res_status_json (code : Z) (value : JsValue) : Response :=
  {| statusCode := code; body := JsonBody value |}.

(** [res.sendStatus(code)]: sets the status and sends its reason phrase as
    the text of the response. *)
Definition res_sendStatus (code : Z) : Response :=
  {| statusCode := code; body := TextBody (status_message code) |}.

Definition is_success (r : Response) : bool :=
  (200 <=? statusCode r) && (statusCode r <? 300).

End Express.
Import Express.

(** ** The server *)

Module Server.

(** [process.env], restricted to the variables the server reads. *)
Record Env : Type := {
  STRIPE_SECRET_KEY : option string;
  STRIPE_WEBHOOK_SECRET : option string;
  PORT_variable : option string;
  RAILWAY_PUBLIC_DOMAIN : option string
}.

(** [process.env.X], or a request header, as a value. *)
Definition env_value (x : option string) : JsValue :=
  match x with
  | Some s => JString s
  | None => JUndefined
  end.

(** [const PORT = process.env.PORT || 3000] *)
Definition PORT (env : Env) : JsValue :=
  if truthy (PORT_variable env) then env_value (PORT_variable env)
  else JNumber 3000.

(** A Stripe event as [constructEvent] returns it ([Stripe.Event]): its
    kind [type] and [data.object], the object the event is about, which
    every event of the provider carries. *)
Record Event : Type := {
  ev_type : string;
  data_object : list (string * JsValue)
}.

(** The Stripe SDK instance, [require('stripe')(key)].  [Payload] is
    whatever the body middleware left in [req.body]. *)
Record Stripe (Payload : Type) : Type := {
  checkout_sessions_create : JsValue -> JsError + list (string * JsValue);
  webhooks_constructEvent :
    Payload -> JsValue -> JsValue -> JsError + Event
}.
Arguments checkout_sessions_create {Payload} _ _.
Arguments webhooks_constructEvent {Payload} _ _ _ _.

Record WebhookRequest (Payload : Type) : Type := {
  headers : list (string * string);
  raw_body : Payload
}.
Arguments headers {Payload} _.
Arguments raw_body {Payload} _.

(** [GET /api/health] *)
Definition health (env : Env) : M Response :=
  ret (res_json (JObject
    [ ("status", JString "Server is running! 🔥");
      ("stripe", JString (if truthy (STRIPE_SECRET_KEY env)
                          then "configured" else "missing")) ])).

(** The product names mapping. *)
Definition productNames : list (string * JsValue) :=
  [ ("karma", JString "The Karma Tee");
    ("buttercup", JString "The Buttercup");
    ("zero-dark", JString "Zero Care - Dark");
    ("zero-light", JString "Zero Care - Light");
    ("boss", JString "The Boss Move") ].

(** The Railway public URL, or the local one.  Both templates print a
    string or the number 3000. *)
Definition YOUR_DOMAIN (env : Env) : string :=
  if truthy (RAILWAY_PUBLIC_DOMAIN env)
  then "https://" ++ text (env_value (RAILWAY_PUBLIC_DOMAIN env))
  else "http://localhost:" ++ text (PORT env).

(** [`${productNames[product]} - Size ${size}`]: the key conversion of
    [product], the conversion of what the lookup gives, and the conversion
    of [size], each of which may throw. *)
Definition line_item_name (product size : JsValue) : Completion string :=
  match ToString product with
  | Throw e => Throw e
  | Normal key =>
      match ToString (get productNames key) with
      | Throw e => Throw e
      | Normal display =>
          match ToString size with
          | Throw e => Throw e
          | Normal size_text => Normal (display ++ " - Size " ++ size_text)
          end
      end
  end.

(** The object literal passed to [stripe.checkout.sessions.create], its
    template literal evaluated to [name]. *)
Definition session_object (env : Env) (name : string)
    (product size price : JsValue) : JsValue :=
  JObject
    [ ("payment_method_types", JArray [JString "card"]);
      ("mode", JString "payment");
      ("line_items", JArray
         [ JObject
             [ ("price_data", JObject
                  [ ("currency", JString "usd");
                    ("product_data", JObject
                       [ ("name", JString name);
                         ("description",
                          JString "✨ Pre-Order - Ships March 2026") ]);
                    ("unit_amount", price) ]);
               ("quantity", JNumber 1) ] ]);
      ("success_url", JString
         (YOUR_DOMAIN env
          ++ "/success.html?session_id={CHECKOUT_SESSION_ID}"));
      ("cancel_url", JString (YOUR_DOMAIN env ++ "/"));
      ("shipping_address_collection", JObject
         [ ("allowed_countries", JArray
              [ JString "US"; JString "CA"; JString "GB";
                JString "AU"; JString "NZ"; JString "IE" ]) ]);
      ("metadata", JObject
         [ ("product", product);
           ("size", size);
           ("order_type", JString "pre-order");
           ("delivery_date", JString "March 2026") ]) ].

(** Evaluating the argument of [stripe.checkout.sessions.create]: it
    throws where the template literal does. *)
Definition session_request (env : Env) (product size price : JsValue)
  : Completion JsValue :=
  match line_item_name product size with
  | Throw e => Throw e
  | Normal name => Normal (session_object env name product size price)
  end.

(** The argument of [stripe.checkout.sessions.create] where its evaluation
    completes: [session_request] yields this value or throws. *)
Definition session_params (env : Env) (product size price : JsValue)
  : JsValue :=
  session_object env
    (text (get productNames (text product)) ++ " - Size " ++ text size)
    product size price.

(** The event-type switch of the webhook handler. *)
Definition dispatch (event : Event) : M unit :=
  if String.eqb (ev_type event) "checkout.session.completed" then
    let session := data_object event in
    console_log
      [ JString "🎉 Payment successful!";
        JObject [ ("id", get session "id");
                  ("amount", get session "amount_total");
                  ("customer", get session "customer_details") ] ]
  else if String.eqb (ev_type event) "payment_intent.succeeded" then
    console_log [JString "💰 Payment intent succeeded"]
  else
    console_log [JString ("ℹ️  Unhandled event type: " ++ ev_type event)].

(** The callback of [app.listen(PORT, ...)]: the start-up banner. *)
Definition listening (env : Env) : M unit :=
  console_log [JString ""] ;;
  console_log [JString "🚀 ========================================"] ;;
  console_log [JString ("🚀 Server running on port " ++ text (PORT env))] ;;
  console_log [JString ("🚀 Visit: http://localhost:" ++ text (PORT env))] ;;
  console_log [JString "🚀 ========================================"] ;;
  console_log [JString ""] ;;
  console_log [JString "📋 Status:"] ;;
  console_log
    [JString ("   Stripe: "
              ++ (if truthy (STRIPE_SECRET_KEY env)
                  then "✅ Configured"
                  else "❌ Missing (add STRIPE_SECRET_KEY)"))] ;;
  console_log
    [JString ("   Domain: "
              ++ text (if truthy (RAILWAY_PUBLIC_DOMAIN env)
                       then env_value (RAILWAY_PUBLIC_DOMAIN env)
                       else JString "localhost"))] ;;
  console_log [JString ""].

Section Handlers.

Context {Payload : Type}.
Variable stripe : Stripe Payload.

(** [await stripe.checkout.sessions.create(params)]: one call over the
    network, which resolves to a session or rejects. *)
Definition sessions_create (params : JsValue)
  : M (list (string * JsValue)) :=
  perform (SessionsCreate params) ;;
  settle (checkout_sessions_create stripe params).

(** [POST /api/create-checkout-session]; [req_body] holds the fields of the
    object [express.json()] left in [req.body]. *)
Definition create_checkout_session
    (env : Env) (req_body : list (string * JsValue)) : M Response :=
  try_catch
    (let product := get req_body "product" in
     let size := get req_body "size" in
     let price := get req_body "price" in
     if negb (truthy (STRIPE_SECRET_KEY env)) then
       ret (res_status_json 500 (JObject
         [ ("error", JString
              "Stripe not configured. Add STRIPE_SECRET_KEY to Railway environment variables.") ]))
     else
       params <- evaluate (session_request env product size price) ;;
       session <- sessions_create params ;;
       console_log [JString "✅ Checkout session created:"; get session "id"] ;;
       ret (res_json (JObject [("id", get session "id")])))
    (fun error =>
       console_error "❌ Stripe error:" error ;;
       ret (res_status_json 500 (JObject
         [("error", JString (message error))]))).

(** [POST /api/webhook] *)
Definition webhook (env : Env) (req : WebhookRequest Payload) : M Response :=
  let sig := env_value (own (headers req) "stripe-signature") in
  let webhookSecret := STRIPE_WEBHOOK_SECRET env in
  if negb (truthy webhookSecret) then
    console_log [JString "⚠️  Webhook secret not configured"] ;;
    ret (res_sendStatus 200)
  else
    verified <-
      try_catch
        (event <- settle (webhooks_constructEvent stripe
                            (raw_body req) sig (env_value webhookSecret)) ;;
         ret (inr event))
        (fun err =>
           console_log
             [ JString "⚠️  Webhook signature verification failed:";
               JString (message err) ] ;;
           ret (inl (res_sendStatus 400))) ;;
    match verified with
    | inl response => ret response
    | inr event =>
        dispatch event ;;
        ret (res_json (JObject [("received", JBool true)]))
    end.

End Handlers.

(** The routes of the application and the callback of [app.listen]. *)
Record Routes (Payload : Type) : Type := {
  get_health : M Response;
  post_create_checkout_session : list (string * JsValue) -> M Response;
  post_webhook : WebhookRequest Payload -> M Response;
  on_listening : M unit
}.
Arguments get_health {Payload} _.
Arguments post_create_checkout_session {Payload} _ _.
Arguments post_webhook {Payload} _ _.
Arguments on_listening {Payload} _.

(** The module as a whole: [require('stripe')] builds the SDK instance
    from the key found in the environment, and the handlers close over
    it. *)
Definition app {Payload : Type} (require_stripe : JsValue -> Stripe Payload)
    (env : Env) : Routes Payload :=
  let stripe := require_stripe (env_value (STRIPE_SECRET_KEY env)) in
  {| get_health := health env;
     post_create_checkout_session := create_checkout_session stripe env;
     post_webhook := webhook stripe env;
     on_listening := listening env |}.

End Server.
Import Server.

(** ** Vocabulary of the properties *)

(** [v.key] and [v[n]] on the request sent to the provider. *)
Definition field (v : JsValue) (key : string) : JsValue :=
  match v with
  | JObject fields => get fields key
  | _ => JUndefined
  end.

Definition item (v : JsValue) (n : nat) : JsValue :=
  match v with
  | JArray xs => nth n xs JUndefined
  | _ => JUndefined
  end.

(** The single line item of a session request and its parts. *)
Definition line_item (params : JsValue) : JsValue :=
  item (field params "line_items") 0.

Definition unit_amount (params : JsValue) : JsValue :=
  field (field (line_item params) "price_data") "unit_amount".

Definition currency (params : JsValue) : JsValue :=
  field (field (line_item params) "price_data") "currency".

Definition display_name (params : JsValue) : JsValue :=
  field (field (field (line_item params) "price_data") "product_data") "name".

(** The identifiers of the product catalog. *)
Definition catalog_ids : list string := map fst productNames.

(** A display string of the intended form, for some catalog entry. *)
Definition catalog_display (size : string) (name : JsValue) : Prop :=
  exists id display,
    In (id, JString display) productNames /\
    name = JString (display ++ " - Size " ++ size).

(** No branch of the event-type switch ran: the trace shares no effect
    with what the switch does on any event. *)
Definition no_dispatch (t : list Effect) : Prop :=
  forall event e, In e (trace (dispatch event)) -> ~ In e t.

(** The body shape [{ status: string, stripeConfigured: boolean }]. *)
Definition health_shape_with_flag (r : Response) (configured : bool) : Prop :=
  exists text,
    body r = JsonBody (JObject [ ("status", JString text);
                                 ("stripeConfigured", JBool configured) ]).

(** An environment in which every variable set to the empty string is
    unset instead. *)
Definition unset_blank (x : option string) : option string :=
  if truthy x then x else None.

Definition without_blanks (env : Env) : Env :=
  {| STRIPE_SECRET_KEY := unset_blank (STRIPE_SECRET_KEY env);
     STRIPE_WEBHOOK_SECRET := unset_blank (STRIPE_WEBHOOK_SECRET env);
     PORT_variable := unset_blank (PORT_variable env);
     RAILWAY_PUBLIC_DOMAIN := unset_blank (RAILWAY_PUBLIC_DOMAIN env) |}.

(** What the health check reports about the provider credential. *)
Definition health_report (env : Env) : JsValue :=
  match completion (health env) with
  | Normal response =>
      match body response with
      | JsonBody value => field value "stripe"
      | TextBody _ => JUndefined
      end
  | Throw _ => JUndefined
  end.

(** ** Test doubles *)

(** A provider that creates every session and verifies a delivery whose
    signature header is the secret, a dot and the payload; the payload
    names the event kind. *)
Definition stub_stripe : Stripe string :=
  {| checkout_sessions_create := fun _ => inr [("id", JString "cs_test_a1B2c3")];
     webhooks_constructEvent := fun payload sig secret =>
       match sig, secret with
       | JString h, JString k =>
           if String.eqb h (k ++ "." ++ payload)
           then inr {| ev_type := payload; data_object := [] |}
           else inl {| message := "No signatures found matching the expected signature for payload." |}
       | _, _ => inl {| message := "No stripe-signature header value was provided." |}
       end |}.

Definition env_live : Env :=
  {| STRIPE_SECRET_KEY := Some "sk_test_51";
     STRIPE_WEBHOOK_SECRET := Some "whsec_9";
     PORT_variable := Some "8080";
     RAILWAY_PUBLIC_DOMAIN := Some "sassclub.up.railway.app" |}.

Definition env_bare : Env :=
  {| STRIPE_SECRET_KEY := None;
     STRIPE_WEBHOOK_SECRET := None;
     PORT_variable := None;
     RAILWAY_PUBLIC_DOMAIN := None |}.

Definition karma_order : list (string * JsValue) :=
  [ ("product", JString "karma"); ("size", JString "M");
    ("price", JNumber 2500) ].

Definition forged_delivery : WebhookRequest string :=
  {| headers := [("stripe-signature", "t=1,v1=00")];
     raw_body := "checkout.session.completed" |}.

Definition signed_delivery (kind : string) : WebhookRequest string :=
  {| headers := [("stripe-signature", "whsec_9." ++ kind)];
     raw_body := kind |}.

(** A provider that rejects every session request. *)
Definition declining_stripe : Stripe string :=
  {| checkout_sessions_create := fun _ =>
       inl {| message := "Invalid integer: -1" |};
     webhooks_constructEvent := webhooks_constructEvent stub_stripe |}.

Definition env_local : Env :=
  {| STRIPE_SECRET_KEY := Some "sk_test_77";
     STRIPE_WEBHOOK_SECRET := Some "";
     PORT_variable := Some "8080";
     RAILWAY_PUBLIC_DOMAIN := None |}.

Definition paid_session : list (string * JsValue) :=
  [ ("id", JString "cs_live_9z"); ("amount_total", JNumber 2500) ].

(** A provider whose verified deliveries are about [paid_session]. *)
Definition replaying_stripe : Stripe string :=
  {| checkout_sessions_create := checkout_sessions_create stub_stripe;
     webhooks_constructEvent := fun payload sig secret =>
       match webhooks_constructEvent stub_stripe payload sig secret with
       | inr event => inr {| ev_type := ev_type event;
                             data_object := paid_session |}
       | inl err => inl err
       end |}.

(** [require('stripe')]: an SDK whose provider accepts one key only. *)
Definition keyed_stripe (key : JsValue) : Stripe string :=
  {| checkout_sessions_create := fun _ =>
       match key with
       | JString "sk_test_51" => inr [("id", JString "cs_test_a1B2c3")]
       | _ => inl {| message := "Invalid API Key provided: sk_live_**" |}
       end;
     webhooks_constructEvent := webhooks_constructEvent stub_stripe |}.

Definition env_other_key : Env :=
  {| STRIPE_SECRET_KEY := Some "sk_live_ZZ";
     STRIPE_WEBHOOK_SECRET := None;
     PORT_variable := Some "8080";
     RAILWAY_PUBLIC_DOMAIN := Some "sassclub.up.railway.app" |}.

Definition unconvertible_order : list (string * JsValue) :=
  [ ("product", JObject [("toString", JNumber 1)]); ("size", JString "M");
    ("price", JNumber 2500) ].

(** ** The webhook handler, path by path *)

Section WebhookPaths.

Context {Payload : Type}.
Variable stripe : Stripe Payload.
Variable env : Env.
Variable req : WebhookRequest Payload.

(** The arguments [constructEvent] is called with. *)
Let verification : JsError + Event :=
  webhooks_constructEvent stripe (raw_body req)
    (env_value (own (headers req) "stripe-signature"))
    (env_value (STRIPE_WEBHOOK_SECRET env)).

Lemma webhook_unconfigured :
  truthy (STRIPE_WEBHOOK_SECRET env) = false ->
  webhook stripe env req =
    (Normal (res_sendStatus 200),
     [ConsoleLog [JString "⚠️  Webhook secret not configured"]]).
Proof.
  intros Hsecret. unfold webhook. rewrite Hsecret. reflexivity.
Qed.

Lemma webhook_rejected (err : JsError) :
  truthy (STRIPE_WEBHOOK_SECRET env) = true ->
  verification = inl err ->
  webhook stripe env req =
    (Normal (res_sendStatus 400),
     [ConsoleLog [ JString "⚠️  Webhook signature verification failed:";
                   JString (message err) ]]).
Proof.
  intros Hsecret Hverify. unfold webhook. rewrite Hsecret. cbn [negb].
  unfold verification in Hverify. rewrite Hverify. reflexivity.
Qed.

Lemma webhook_verified (event : Event) :
  truthy (STRIPE_WEBHOOK_SECRET env) = true ->
  verification = inr event ->
  webhook stripe env req =
    (Normal (res_json (JObject [("received", JBool true)])),
     trace (dispatch event)).
Proof.
  intros Hsecret Hverify. unfold webhook. rewrite Hsecret. cbn [negb].
  unfold verification in Hverify. rewrite Hverify.
  cbn [settle ret bind try_catch app].
  destruct (dispatch event) as [[[]|e] t] eqn:Hd.
  - cbn. now rewrite app_nil_r.
  - exfalso. revert Hd. unfold dispatch.
    repeat match goal with |- context [if ?c then _ else _] => destruct c end;
      discriminate.
Qed.

End WebhookPaths.

(** The switch logs exactly one line, whatever the event. *)
Lemma dispatch_cases (event : Event) :
  dispatch event =
    (Normal tt,
     [ConsoleLog
        [ JString "🎉 Payment successful!";
          JObject [ ("id", get (data_object event) "id");
                    ("amount", get (data_object event) "amount_total");
                    ("customer",
                     get (data_object event) "customer_details") ] ]])
  \/ dispatch event =
       (Normal tt, [ConsoleLog [JString "💰 Payment intent succeeded"]])
  \/ dispatch event =
       (Normal tt,
        [ConsoleLog
           [JString ("ℹ️  Unhandled event type: " ++ ev_type event)]]).
Proof.
  unfold dispatch.
  destruct (String.eqb (ev_type event) "checkout.session.completed");
    [now left|].
  destruct (String.eqb (ev_type event) "payment_intent.succeeded");
    [right; now left | right; now right].
Qed.

(** A one-line trace whose line differs from each of the three lines of
    the switch. *)
Ltac differs_from_switch :=
  let event := fresh "event" in
  let e := fresh "e" in
  let He := fresh "He" in
  let Hd := fresh "Hd" in
  intros event e He [<-|[]];
  destruct (dispatch_cases event) as [Hd|[Hd|Hd]];
  rewrite Hd in He; cbn in He; destruct He as [He|[]];
  discriminate He.

Lemma no_dispatch_secret_warning :
  no_dispatch [ConsoleLog [JString "⚠️  Webhook secret not configured"]].
Proof. differs_from_switch. Qed.

Lemma no_dispatch_verification_warning (reason : string) :
  no_dispatch
    [ConsoleLog [ JString "⚠️  Webhook signature verification failed:";
                  JString reason ]].
Proof. differs_from_switch. Qed.

(** ** The webhook properties *)

(** C1: whenever the signature does not verify against the configured
    webhook secret ([constructEvent] throws), the handler answers with
    status 400 and runs no branch of the event-type switch; it logs the
    reason and does nothing else. *)
Theorem webhook_signature_mismatch
    {Payload : Type} (stripe : Stripe Payload) (env : Env)
    (req : WebhookRequest Payload) (err : JsError) :
  truthy (STRIPE_WEBHOOK_SECRET env) = true ->
  webhooks_constructEvent stripe (raw_body req)
    (env_value (own (headers req) "stripe-signature"))
    (env_value (STRIPE_WEBHOOK_SECRET env)) = inl err ->
  exists response,
    completion (webhook stripe env req) = Normal response /\
    statusCode response = 400 /\
    no_dispatch (trace (webhook stripe env req)) /\
    trace (webhook stripe env req) =
      [ConsoleLog [ JString "⚠️  Webhook signature verification failed:";
                    JString (message err) ]].
Proof.
  intros Hsecret Hverify.
  rewrite (webhook_rejected stripe env req err Hsecret Hverify).
  exists (res_sendStatus 400). cbn [completion trace fst snd].
  repeat split. apply no_dispatch_verification_warning.
Qed.

Lemma webhook_signature_mismatch_witness :
  exists response,
    completion (webhook stub_stripe env_live forged_delivery)
      = Normal response /\
    statusCode response = 400 /\
    no_dispatch (trace (webhook stub_stripe env_live forged_delivery)) /\
    trace (webhook stub_stripe env_live forged_delivery) =
      [ConsoleLog
         [ JString "⚠️  Webhook signature verification failed:";
           JString "No signatures found matching the expected signature for payload." ]].
Proof.
  apply (webhook_signature_mismatch stub_stripe env_live forged_delivery
           {| message := "No signatures found matching the expected signature for payload." |});
    reflexivity.
Defined.

(** C3: when the webhook secret is not configured, the handler answers
    with a success status whatever the body, runs no branch of the
    event-type switch, and its whole effect is one log line. *)
Theorem webhook_unconfigured_secret
    {Payload : Type} (stripe : Stripe Payload) (env : Env)
    (req : WebhookRequest Payload) :
  truthy (STRIPE_WEBHOOK_SECRET env) = false ->
  exists response line,
    completion (webhook stripe env req) = Normal response /\
    is_success response = true /\
    no_dispatch (trace (webhook stripe env req)) /\
    trace (webhook stripe env req) = [ConsoleLog line].
Proof.
  intros Hsecret. rewrite (webhook_unconfigured stripe env req Hsecret).
  exists (res_sendStatus 200), [JString "⚠️  Webhook secret not configured"].
  cbn [completion trace fst snd]. repeat split.
  apply no_dispatch_secret_warning.
Qed.

Lemma webhook_unconfigured_secret_witness :
  exists response line,
    completion (webhook stub_stripe env_bare forged_delivery)
      = Normal response /\
    is_success response = true /\
    no_dispatch (trace (webhook stub_stripe env_bare forged_delivery)) /\
    trace (webhook stub_stripe env_bare forged_delivery) = [ConsoleLog line].
Proof.
  apply (webhook_unconfigured_secret stub_stripe env_bare forged_delivery).
  reflexivity.
Defined.

(** C6: every verified event, of a handled kind or of any other, is
    acknowledged with a success response; the handler completes normally
    (nothing is raised) and its effects are those of the switch. *)
Theorem webhook_verified_acknowledged
    {Payload : Type} (stripe : Stripe Payload) (env : Env)
    (req : WebhookRequest Payload) (event : Event) :
  truthy (STRIPE_WEBHOOK_SECRET env) = true ->
  webhooks_constructEvent stripe (raw_body req)
    (env_value (own (headers req) "stripe-signature"))
    (env_value (STRIPE_WEBHOOK_SECRET env)) = inr event ->
  exists response,
    completion (webhook stripe env req) = Normal response /\
    is_success response = true /\
    statusCode response = 200 /\
    trace (webhook stripe env req) = trace (dispatch event) /\
    exists line, trace (dispatch event) = [ConsoleLog line].
Proof.
  intros Hsecret Hverify.
  rewrite (webhook_verified stripe env req event Hsecret Hverify).
  exists (res_json (JObject [("received", JBool true)])).
  cbn [completion trace fst snd]. repeat split.
  destruct (dispatch_cases event) as [Hd|[Hd|Hd]]; rewrite Hd; cbn;
    eexists; reflexivity.
Qed.

Lemma webhook_verified_acknowledged_witness :
  let req := signed_delivery "customer.created" in
  exists response,
    completion (webhook stub_stripe env_live req) = Normal response /\
    is_success response = true /\
    statusCode response = 200 /\
    trace (webhook stub_stripe env_live req)
      = trace (dispatch {| ev_type := "customer.created";
                           data_object := [] |}) /\
    exists line,
      trace (dispatch {| ev_type := "customer.created"; data_object := [] |})
        = [ConsoleLog line].
Proof.
  apply (webhook_verified_acknowledged stub_stripe env_live
           (signed_delivery "customer.created")
           {| ev_type := "customer.created"; data_object := [] |});
    reflexivity.
Defined.

(** ** The checkout handler, path by path *)

Lemma string_app_assoc (a b c : string) : (a ++ b) ++ c = a ++ (b ++ c).
Proof.
  induction a as [|ch a IH]; cbn; [reflexivity | now rewrite IH].
Qed.

(** What a key that is no own property reads as. *)
Lemma inherited_cases (key : string) :
  inherited key = JUndefined
  \/ (exists name, inherited key = JFunction name)
  \/ inherited key = JObject [].
Proof.
  unfold inherited, Object_prototype. cbn [own].
  repeat match goal with
         | |- context [if String.eqb ?k key then _ else _] =>
             destruct (String.eqb k key);
             [solve [ right; left; eexists; reflexivity
                    | right; right; reflexivity ] |]
         end.
  now left.
Qed.

(** What the catalog lookup gives always converts. *)
Lemma catalog_lookup_converts (key : string) :
  ToString (get productNames key) = Normal (text (get productNames key)).
Proof.
  unfold get, productNames. cbn [own].
  repeat match goal with
         | |- context [if String.eqb ?k key then _ else _] =>
             destruct (String.eqb k key); [reflexivity|]
         end.
  destruct (inherited_cases key) as [->|[[name ->]| ->]]; reflexivity.
Qed.

Lemma text_of_conversion (v : JsValue) (s : string) :
  ToString v = Normal s -> text v = s.
Proof. intros Hv. unfold text. now rewrite Hv. Qed.

(** The request is built whenever product and size convert. *)
Lemma session_request_converted env product size price key size_text :
  ToString product = Normal key ->
  ToString size = Normal size_text ->
  session_request env product size price
    = Normal (session_params env product size price).
Proof.
  intros Hproduct Hsize.
  unfold session_request, line_item_name, session_params.
  rewrite (text_of_conversion _ _ Hproduct), (text_of_conversion _ _ Hsize).
  rewrite Hproduct, catalog_lookup_converts, Hsize. reflexivity.
Qed.

(** Evaluating the request either throws or yields [session_params]. *)
Lemma session_request_cases env product size price :
  (exists e, session_request env product size price = Throw e)
  \/ session_request env product size price
       = Normal (session_params env product size price).
Proof.
  destruct (ToString product) as [key|e] eqn:Hproduct.
  - destruct (ToString size) as [size_text|e] eqn:Hsize.
    + right. now apply (session_request_converted _ _ _ _ key size_text).
    + left. exists e. unfold session_request, line_item_name.
      now rewrite Hproduct, catalog_lookup_converts, Hsize.
  - left. exists e. unfold session_request, line_item_name.
    now rewrite Hproduct.
Qed.

Section CheckoutPaths.

Context {Payload : Type}.
Variable stripe : Stripe Payload.
Variable env : Env.
Variable req_body : list (string * JsValue).

Lemma checkout_unconfigured :
  truthy (STRIPE_SECRET_KEY env) = false ->
  create_checkout_session stripe env req_body =
    (Normal (res_status_json 500 (JObject
       [ ("error", JString
            "Stripe not configured. Add STRIPE_SECRET_KEY to Railway environment variables.") ])),
     []).
Proof.
  intros Hkey. unfold create_checkout_session. rewrite Hkey. reflexivity.
Qed.

(** The request cannot be built: the error is caught before any call. *)
Lemma checkout_throwing (e : JsError) :
  truthy (STRIPE_SECRET_KEY env) = true ->
  session_request env (get req_body "product") (get req_body "size")
    (get req_body "price") = Throw e ->
  create_checkout_session stripe env req_body =
    (Normal (res_status_json 500 (JObject [("error", JString (message e))])),
     [ConsoleError "❌ Stripe error:" e]).
Proof.
  intros Hkey Hthrow. unfold create_checkout_session.
  rewrite Hkey, Hthrow. reflexivity.
Qed.

(** The request is built: the provider decides. *)
Lemma checkout_requesting (params : JsValue) :
  truthy (STRIPE_SECRET_KEY env) = true ->
  session_request env (get req_body "product") (get req_body "size")
    (get req_body "price") = Normal params ->
  create_checkout_session stripe env req_body =
    match checkout_sessions_create stripe params with
    | inr session =>
        (Normal (res_json (JObject [("id", get session "id")])),
         [ SessionsCreate params;
           ConsoleLog [ JString "✅ Checkout session created:";
                        get session "id" ] ])
    | inl error =>
        (Normal (res_status_json 500 (JObject
           [("error", JString (message error))])),
         [ SessionsCreate params;
           ConsoleError "❌ Stripe error:" error ])
    end.
Proof.
  intros Hkey Hbuilt. unfold create_checkout_session, sessions_create.
  rewrite Hkey, Hbuilt. unfold evaluate. cbn [negb bind].
  destruct (checkout_sessions_create stripe params) as [error|session];
    reflexivity.
Qed.

Lemma checkout_configured (key size_text : string) :
  truthy (STRIPE_SECRET_KEY env) = true ->
  ToString (get req_body "product") = Normal key ->
  ToString (get req_body "size") = Normal size_text ->
  create_checkout_session stripe env req_body =
    let params := session_params env (get req_body "product")
                    (get req_body "size") (get req_body "price") in
    match checkout_sessions_create stripe params with
    | inr session =>
        (Normal (res_json (JObject [("id", get session "id")])),
         [ SessionsCreate params;
           ConsoleLog [ JString "✅ Checkout session created:";
                        get session "id" ] ])
    | inl error =>
        (Normal (res_status_json 500 (JObject
           [("error", JString (message error))])),
         [ SessionsCreate params;
           ConsoleError "❌ Stripe error:" error ])
    end.
Proof.
  intros Hkey Hproduct Hsize.
  apply (checkout_requesting _ Hkey).
  now apply (session_request_converted _ _ _ _ key size_text).
Qed.

(** With the credential configured and a product and size that convert,
    the provider is called once, with the request built from the body. *)
Lemma checkout_calls_provider_once (key size_text : string) :
  truthy (STRIPE_SECRET_KEY env) = true ->
  ToString (get req_body "product") = Normal key ->
  ToString (get req_body "size") = Normal size_text ->
  provider_calls (trace (create_checkout_session stripe env req_body)) =
    [session_params env (get req_body "product") (get req_body "size")
       (get req_body "price")].
Proof.
  intros Hkey Hproduct Hsize.
  rewrite (checkout_configured key size_text Hkey Hproduct Hsize). cbv zeta.
  destruct (checkout_sessions_create stripe _); reflexivity.
Qed.

End CheckoutPaths.

(** The parts of the request, read back from [session_params]. *)
Lemma session_params_unit_amount env product size price :
  unit_amount (session_params env product size price) = price.
Proof. reflexivity. Qed.

Lemma session_params_display_name env product size price :
  display_name (session_params env product size price) =
    JString (text (get productNames (text product))
             ++ " - Size " ++ text size).
Proof. reflexivity. Qed.

Lemma catalog_ids_listed :
  catalog_ids = ["karma"; "buttercup"; "zero-dark"; "zero-light"; "boss"].
Proof. reflexivity. Qed.

(** Its text in a template starts with none of the catalog's capitals. *)
Lemma inherited_head (key rest : string) :
  exists c tail,
    text (inherited key) ++ rest = String c tail /\
    (c = "u" \/ c = "f" \/ c = "[")%char.
Proof.
  destruct (inherited_cases key) as [->|[[name ->]| ->]]; cbn;
    do 2 eexists; split; try reflexivity; auto.
Qed.

(** A product that is no catalog key never gets a catalog display
    string. *)
Lemma absent_product_display (key size : string) :
  own productNames key = None ->
  ~ catalog_display size
      (JString (text (get productNames key) ++ " - Size " ++ size)).
Proof.
  intros Habsent (id & display & Hin & Hname).
  unfold get in Hname. rewrite Habsent in Hname.
  assert (Htext : text (inherited key) ++ " - Size " ++ size
                  = display ++ " - Size " ++ size) by congruence.
  destruct (inherited_head key (" - Size " ++ size))
    as (c & tail & Hhead & Hc).
  rewrite Hhead in Htext. clear Hhead Hname.
  unfold productNames in Hin. cbn [In] in Hin.
  repeat match type of Hin with
         | _ \/ _ => destruct Hin as [Hin|Hin]
         end;
    try contradiction;
    assert (Hd : JString display = snd (id, JString display)) by reflexivity;
    rewrite <- Hin in Hd; cbn [snd] in Hd; injection Hd as ->;
    cbn in Htext; destruct Hc as [->|[->| ->]]; discriminate Htext.
Qed.

(** ** The checkout properties *)

(** C2: when the provider credential is not configured, every order
    request is answered with status 500 and the message that explains the
    missing configuration, and the provider is never called. *)
Theorem checkout_missing_credential
    {Payload : Type} (stripe : Stripe Payload) (env : Env)
    (req_body : list (string * JsValue)) :
  truthy (STRIPE_SECRET_KEY env) = false ->
  exists response,
    completion (create_checkout_session stripe env req_body)
      = Normal response /\
    statusCode response = 500 /\
    body response = JsonBody (JObject
      [ ("error", JString
           "Stripe not configured. Add STRIPE_SECRET_KEY to Railway environment variables.") ]) /\
    provider_calls (trace (create_checkout_session stripe env req_body)) = [].
Proof.
  intros Hkey. rewrite (checkout_unconfigured stripe env req_body Hkey).
  eexists. cbn [completion trace fst snd].
  split; [reflexivity|]. repeat split.
Qed.

Lemma checkout_missing_credential_witness :
  exists response,
    completion (create_checkout_session stub_stripe env_bare karma_order)
      = Normal response /\
    statusCode response = 500 /\
    body response = JsonBody (JObject
      [ ("error", JString
           "Stripe not configured. Add STRIPE_SECRET_KEY to Railway environment variables.") ]) /\
    provider_calls
      (trace (create_checkout_session stub_stripe env_bare karma_order)) = [].
Proof.
  apply (checkout_missing_credential stub_stripe env_bare karma_order).
  reflexivity.
Defined.

(** C4: for the order karma / M / 2500, when the provider creates the
    session, the answer is [{ id }] with the provider's (non-empty) session
    id, and the one request sent to the provider has unit amount 2500,
    currency usd, quantity 1 and metadata product karma, size M. *)
Theorem checkout_karma_example
    {Payload : Type} (stripe : Stripe Payload) (env : Env)
    (session : list (string * JsValue)) (sid : string) :
  truthy (STRIPE_SECRET_KEY env) = true ->
  checkout_sessions_create stripe
    (session_params env (JString "karma") (JString "M") (JNumber 2500))
    = inr session ->
  get session "id" = JString sid ->
  sid <> "" ->
  exists response params,
    completion (create_checkout_session stripe env karma_order)
      = Normal response /\
    statusCode response = 200 /\
    body response = JsonBody (JObject [("id", JString sid)]) /\
    sid <> "" /\
    provider_calls (trace (create_checkout_session stripe env karma_order))
      = [params] /\
    unit_amount params = JNumber 2500 /\
    currency params = JString "usd" /\
    field (line_item params) "quantity" = JNumber 1 /\
    field (field params "metadata") "product" = JString "karma" /\
    field (field params "metadata") "size" = JString "M".
Proof.
  intros Hkey Hcreated Hid Hsid.
  rewrite (checkout_configured stripe env karma_order "karma" "M" Hkey
             eq_refl eq_refl).
  cbv zeta.
  change (get karma_order "product") with (JString "karma").
  change (get karma_order "size") with (JString "M").
  change (get karma_order "price") with (JNumber 2500).
  rewrite Hcreated, Hid.
  do 2 eexists. cbn [completion trace fst snd provider_calls].
  split; [reflexivity|]. repeat split. exact Hsid.
Qed.

Lemma checkout_karma_example_witness :
  exists response params,
    completion (create_checkout_session stub_stripe env_live karma_order)
      = Normal response /\
    statusCode response = 200 /\
    body response = JsonBody (JObject [("id", JString "cs_test_a1B2c3")]) /\
    "cs_test_a1B2c3" <> "" /\
    provider_calls
      (trace (create_checkout_session stub_stripe env_live karma_order))
      = [params] /\
    unit_amount params = JNumber 2500 /\
    currency params = JString "usd" /\
    field (line_item params) "quantity" = JNumber 1 /\
    field (field params "metadata") "product" = JString "karma" /\
    field (field params "metadata") "size" = JString "M".
Proof.
  apply (checkout_karma_example stub_stripe env_live
           [("id", JString "cs_test_a1B2c3")] "cs_test_a1B2c3");
    try reflexivity.
  discriminate.
Defined.

(** C5: for each of the five catalog identifiers, every size string and
    every positive integer price, the request sent to the provider names
    its line item by the catalog display name, then [" - Size "], then the
    size. *)
Theorem checkout_catalog_display_name
    {Payload : Type} (stripe : Stripe Payload) (env : Env)
    (req_body : list (string * JsValue))
    (product size : string) (price : Z) :
  truthy (STRIPE_SECRET_KEY env) = true ->
  In product ["karma"; "buttercup"; "zero-dark"; "zero-light"; "boss"] ->
  0 < price ->
  get req_body "product" = JString product ->
  get req_body "size" = JString size ->
  get req_body "price" = JNumber price ->
  exists display params,
    In (product, JString display) productNames /\
    provider_calls (trace (create_checkout_session stripe env req_body))
      = [params] /\
    display_name params = JString (display ++ " - Size " ++ size).
Proof.
  intros Hkey Hin _ Hproduct Hsize Hprice.
  assert (Hp : ToString (get req_body "product") = Normal product)
    by now rewrite Hproduct.
  assert (Hs : ToString (get req_body "size") = Normal size)
    by now rewrite Hsize.
  rewrite (checkout_calls_provider_once stripe env req_body product size
             Hkey Hp Hs).
  rewrite Hproduct, Hsize, Hprice.
  cbn [In] in Hin.
  repeat match type of Hin with
         | _ \/ _ => destruct Hin as [<-|Hin]
         end;
    try contradiction;
    do 2 eexists; (split; [|split; reflexivity]); cbn; tauto.
Qed.

Lemma checkout_catalog_display_name_witness :
  exists display params,
    In ("karma", JString display) productNames /\
    provider_calls
      (trace (create_checkout_session stub_stripe env_live karma_order))
      = [params] /\
    display_name params = JString (display ++ " - Size " ++ "M").
Proof.
  apply (checkout_catalog_display_name stub_stripe env_live karma_order
           "karma" "M" 2500);
    first [reflexivity | now left | lia].
Defined.

(** C7: with the credential configured, every order request -- any
    product string, in the catalog or not, any size string and any price
    -- reaches the provider: the declared price is the unit amount as it
    came, the answer is decided by the provider's result alone, and a
    product absent from the catalog gives a display string that is none of
    the catalog's (["undefined - Size ..."] unless the key names an
    inherited property). *)
Theorem checkout_forwards_unvalidated
    {Payload : Type} (stripe : Stripe Payload) (env : Env)
    (req_body : list (string * JsValue)) (product size : string) :
  truthy (STRIPE_SECRET_KEY env) = true ->
  get req_body "product" = JString product ->
  get req_body "size" = JString size ->
  let price := get req_body "price" in
  let params := session_params env (JString product) (JString size) price in
  let run := create_checkout_session stripe env req_body in
  provider_calls (trace run) = [params] /\
  unit_amount params = price /\
  (forall session,
      checkout_sessions_create stripe params = inr session ->
      completion run = Normal (res_json (JObject [("id", get session "id")])))
  /\
  (forall error,
      checkout_sessions_create stripe params = inl error ->
      completion run = Normal (res_status_json 500
                                 (JObject [("error", JString (message error))])))
  /\
  (own productNames product = None ->
     ~ catalog_display size (display_name params) /\
     (own Object_prototype product = None ->
        display_name params = JString ("undefined - Size " ++ size))).
Proof.
  intros Hkey Hproduct Hsize price params run.
  assert (Hp : ToString (get req_body "product") = Normal product)
    by now rewrite Hproduct.
  assert (Hs : ToString (get req_body "size") = Normal size)
    by now rewrite Hsize.
  split.
  { unfold run, params, price.
    rewrite (checkout_calls_provider_once stripe env req_body product size
               Hkey Hp Hs).
    now rewrite Hproduct, Hsize. }
  split; [reflexivity|].
  unfold run.
  rewrite (checkout_configured stripe env req_body product size Hkey Hp Hs).
  cbv zeta. rewrite Hproduct, Hsize. fold price. fold params.
  split; [intros session ->; reflexivity|].
  split; [intros error ->; reflexivity|].
  intros Habsent. unfold params. rewrite session_params_display_name.
  change (text (JString product)) with product.
  change (text (JString size)) with size.
  split; [now apply absent_product_display|].
  intros Hinherit. unfold get, inherited. now rewrite Habsent, Hinherit.
Qed.

Lemma checkout_forwards_unvalidated_witness :
  let req_body := [ ("product", JString "gift-card"); ("size", JString "XL");
                    ("price", JNumber (-1)) ] in
  let params := session_params env_live (JString "gift-card") (JString "XL")
                  (JNumber (-1)) in
  let run := create_checkout_session stub_stripe env_live req_body in
  provider_calls (trace run) = [params] /\
  unit_amount params = JNumber (-1) /\
  display_name params = JString "undefined - Size XL".
Proof.
  intros req_body params run.
  destruct (checkout_forwards_unvalidated stub_stripe env_live req_body
              "gift-card" "XL" eq_refl eq_refl eq_refl)
    as (Hcalls & Hamount & _ & _ & Hname).
  split; [exact Hcalls|]. split; [exact Hamount|].
  exact (proj2 (Hname eq_refl) eq_refl).
Defined.

(** C9: with the credential configured, the success and cancel URLs of the
    request sent for an order are the base URL -- [https://] and the
    configured public domain, else [http://localhost:] and the port, 3000
    when none is set -- followed by fixed paths, and the success URL
    carries the [{CHECKOUT_SESSION_ID}] placeholder. *)
Theorem checkout_redirect_urls
    {Payload : Type} (stripe : Stripe Payload) (env : Env)
    (req_body : list (string * JsValue)) (product size : string) :
  truthy (STRIPE_SECRET_KEY env) = true ->
  get req_body "product" = JString product ->
  get req_body "size" = JString size ->
  exists params base,
    provider_calls (trace (create_checkout_session stripe env req_body))
      = [params] /\
    field params "success_url"
      = JString (base ++ "/success.html?session_id={CHECKOUT_SESSION_ID}") /\
    field params "cancel_url" = JString (base ++ "/") /\
    (exists before after,
        field params "success_url"
          = JString (before ++ "{CHECKOUT_SESSION_ID}" ++ after)) /\
    (forall domain,
        RAILWAY_PUBLIC_DOMAIN env = Some domain -> domain <> "" ->
        base = "https://" ++ domain) /\
    (RAILWAY_PUBLIC_DOMAIN env = None \/ RAILWAY_PUBLIC_DOMAIN env = Some "" ->
        (forall port,
            PORT_variable env = Some port -> port <> "" ->
            base = "http://localhost:" ++ port) /\
        (PORT_variable env = None \/ PORT_variable env = Some "" ->
            base = "http://localhost:3000")).
Proof.
  intros Hkey Hproduct Hsize.
  assert (Hp : ToString (get req_body "product") = Normal product)
    by now rewrite Hproduct.
  assert (Hs : ToString (get req_body "size") = Normal size)
    by now rewrite Hsize.
  rewrite (checkout_calls_provider_once stripe env req_body product size
             Hkey Hp Hs).
  exists (session_params env (get req_body "product") (get req_body "size")
            (get req_body "price")), (YOUR_DOMAIN env).
  split; [reflexivity|]. split; [reflexivity|]. split; [reflexivity|].
  split.
  { exists (YOUR_DOMAIN env ++ "/success.html?session_id="), "".
    cbn [field session_params session_object]. f_equal.
    now rewrite string_app_assoc. }
  split.
  { intros domain Hdomain Hne. unfold YOUR_DOMAIN. rewrite Hdomain.
    cbn [truthy]. apply String.eqb_neq in Hne. now rewrite Hne. }
  intros Hlocal.
  assert (Hbase : YOUR_DOMAIN env = "http://localhost:" ++ text (PORT env)).
  { unfold YOUR_DOMAIN.
    destruct Hlocal as [Hnone|Hempty];
      [rewrite Hnone | rewrite Hempty]; reflexivity. }
  rewrite Hbase. unfold PORT. split.
  - intros port Hport Hne. rewrite Hport. cbn [truthy].
    apply String.eqb_neq in Hne. now rewrite Hne.
  - intros [Hnone|Hempty]; [rewrite Hnone | rewrite Hempty]; reflexivity.
Qed.

Lemma checkout_redirect_urls_witness :
  exists params base,
    provider_calls
      (trace (create_checkout_session stub_stripe env_live karma_order))
      = [params] /\
    field params "success_url"
      = JString (base ++ "/success.html?session_id={CHECKOUT_SESSION_ID}") /\
    field params "cancel_url" = JString (base ++ "/") /\
    base = "https://sassclub.up.railway.app".
Proof.
  destruct (checkout_redirect_urls stub_stripe env_live karma_order
              "karma" "M" eq_refl eq_refl eq_refl)
    as (params & base & Hcalls & Hsuccess & Hcancel & _ & Hdomain & _).
  exists params, base. repeat split; try assumption.
  apply (Hdomain "sassclub.up.railway.app"); [reflexivity | discriminate].
Defined.

(** ** The health check *)

(** C8, as stated, fails: with the credential configured the body of the
    health answer is not [{ status, stripeConfigured: true }]. *)
Lemma health_has_no_boolean_flag :
  ~ (exists response,
        completion (health env_live) = Normal response /\
        statusCode response = 200 /\
        health_shape_with_flag response
          (truthy (STRIPE_SECRET_KEY env_live))).
Proof.
  intros (response & Hrun & _ & text & Hbody).
  injection Hrun as <-. discriminate Hbody.
Qed.

(** C8, amended: every health request is answered with status 200 and a
    JSON body [{ status, stripe }] of two strings, where [stripe] is
    ["configured"] when the provider credential is configured and
    ["missing"] when it is not; nothing else happens. *)
Theorem health_reports_configuration (env : Env) :
  exists response text flag,
    health env = (Normal response, []) /\
    statusCode response = 200 /\
    body response = JsonBody (JObject [ ("status", JString text);
                                        ("stripe", JString flag) ]) /\
    (flag = "configured" <-> truthy (STRIPE_SECRET_KEY env) = true) /\
    (flag = "missing" <-> truthy (STRIPE_SECRET_KEY env) = false).
Proof.
  unfold health, ret, res_json.
  destruct (truthy (STRIPE_SECRET_KEY env));
    do 3 eexists; (split; [reflexivity|]);
    cbn [statusCode body]; (split; [reflexivity|]); (split; [reflexivity|]);
    split; split; intros H; try reflexivity; discriminate H.
Qed.

(** ** The two acknowledgments of the webhook *)

(** C10, as stated, fails: without a webhook secret the answer is not an
    empty body. *)
Lemma webhook_unconfigured_body_not_empty :
  ~ (exists response,
        completion (webhook stub_stripe env_bare forged_delivery)
          = Normal response /\
        statusCode response = 200 /\
        body response = TextBody "").
Proof.
  intros (response & Hrun & _ & Hbody).
  injection Hrun as <-. discriminate Hbody.
Qed.

(** C10, amended: without a webhook secret the handler answers 200 with
    the text [OK]; for every verified event, of any kind, it answers 200
    with the JSON body [{ received: true }]; the two bodies differ, so a
    caller can tell the unverified mode from a verified dispatch. *)
Theorem webhook_acknowledgments_differ
    {Payload : Type} (stripe : Stripe Payload)
    (env : Env) (req : WebhookRequest Payload)
    (env' : Env) (req' : WebhookRequest Payload) (event : Event) :
  truthy (STRIPE_WEBHOOK_SECRET env) = false ->
  truthy (STRIPE_WEBHOOK_SECRET env') = true ->
  webhooks_constructEvent stripe (raw_body req')
    (env_value (own (headers req') "stripe-signature"))
    (env_value (STRIPE_WEBHOOK_SECRET env')) = inr event ->
  exists degraded verified,
    completion (webhook stripe env req) = Normal degraded /\
    completion (webhook stripe env' req') = Normal verified /\
    statusCode degraded = 200 /\
    body degraded = TextBody "OK" /\
    statusCode verified = 200 /\
    body verified = JsonBody (JObject [("received", JBool true)]) /\
    body degraded <> body verified.
Proof.
  intros Hnone Hsecret Hverify.
  rewrite (webhook_unconfigured stripe env req Hnone).
  rewrite (webhook_verified stripe env' req' event Hsecret Hverify).
  do 2 eexists. cbn [completion fst].
  split; [reflexivity|]. split; [reflexivity|].
  repeat split. discriminate.
Qed.

Lemma webhook_acknowledgments_differ_witness :
  exists degraded verified,
    completion (webhook stub_stripe env_bare forged_delivery)
      = Normal degraded /\
    completion (webhook stub_stripe env_live
                  (signed_delivery "payment_intent.succeeded"))
      = Normal verified /\
    statusCode degraded = 200 /\
    body degraded = TextBody "OK" /\
    statusCode verified = 200 /\
    body verified = JsonBody (JObject [("received", JBool true)]) /\
    body degraded <> body verified.
Proof.
  apply (webhook_acknowledgments_differ stub_stripe
           env_bare forged_delivery
           env_live (signed_delivery "payment_intent.succeeded")
           {| ev_type := "payment_intent.succeeded"; data_object := [] |});
    reflexivity.
Defined.

(** ** Further properties of the checkout handler *)

Section CheckoutCalls.

Context {Payload : Type}.
Variable stripe : Stripe Payload.
Variable env : Env.
Variable req_body : list (string * JsValue).

Lemma provider_calls_requesting (params : JsValue) :
  truthy (STRIPE_SECRET_KEY env) = true ->
  session_request env (get req_body "product") (get req_body "size")
    (get req_body "price") = Normal params ->
  provider_calls (trace (create_checkout_session stripe env req_body))
    = [params].
Proof.
  intros Hkey Hbuilt.
  rewrite (checkout_requesting stripe env req_body params Hkey Hbuilt).
  destruct (checkout_sessions_create stripe params); reflexivity.
Qed.

Lemma provider_calls_throwing (e : JsError) :
  truthy (STRIPE_SECRET_KEY env) = true ->
  session_request env (get req_body "product") (get req_body "size")
    (get req_body "price") = Throw e ->
  provider_calls (trace (create_checkout_session stripe env req_body)) = [].
Proof.
  intros Hkey Hthrow.
  now rewrite (checkout_throwing stripe env req_body e Hkey Hthrow).
Qed.

End CheckoutCalls.

(** X1: when the request can be built and the provider rejects it, the
    handler answers 500 with the provider's message as [error], logs the
    error on the error console, and logs no creation line. *)
Theorem checkout_provider_rejection
    {Payload : Type} (stripe : Stripe Payload) (env : Env)
    (req_body : list (string * JsValue)) (params : JsValue)
    (error : JsError) :
  truthy (STRIPE_SECRET_KEY env) = true ->
  session_request env (get req_body "product") (get req_body "size")
    (get req_body "price") = Normal params ->
  checkout_sessions_create stripe params = inl error ->
  create_checkout_session stripe env req_body =
    (Normal {| statusCode := 500;
               body := JsonBody (JObject
                         [("error", JString (message error))]) |},
     [ SessionsCreate params; ConsoleError "❌ Stripe error:" error ]).
Proof.
  intros Hkey Hbuilt Hrejected.
  rewrite (checkout_requesting stripe env req_body params Hkey Hbuilt).
  now rewrite Hrejected.
Qed.

Lemma checkout_provider_rejection_witness :
  create_checkout_session declining_stripe env_live karma_order =
    (Normal {| statusCode := 500;
               body := JsonBody (JObject
                         [("error", JString "Invalid integer: -1")]) |},
     [ SessionsCreate
         (session_params env_live (JString "karma") (JString "M")
            (JNumber 2500));
       ConsoleError "❌ Stripe error:"
         {| message := "Invalid integer: -1" |} ]).
Proof.
  apply (checkout_provider_rejection declining_stripe env_live karma_order
           (session_params env_live (JString "karma") (JString "M")
              (JNumber 2500))
           {| message := "Invalid integer: -1" |});
    reflexivity.
Defined.

(** X2: when the request can be built and the provider creates the
    session, the answer carries the session's [id] and nothing else of the
    session, and the one line logged after the call shows that same id. *)
Theorem checkout_success_returns_logged_id
    {Payload : Type} (stripe : Stripe Payload) (env : Env)
    (req_body : list (string * JsValue)) (params : JsValue)
    (session : list (string * JsValue)) :
  truthy (STRIPE_SECRET_KEY env) = true ->
  session_request env (get req_body "product") (get req_body "size")
    (get req_body "price") = Normal params ->
  checkout_sessions_create stripe params = inr session ->
  create_checkout_session stripe env req_body =
    (Normal {| statusCode := 200;
               body := JsonBody (JObject [("id", get session "id")]) |},
     [ SessionsCreate params;
       ConsoleLog [ JString "✅ Checkout session created:";
                    get session "id" ] ]).
Proof.
  intros Hkey Hbuilt Hcreated.
  rewrite (checkout_requesting stripe env req_body params Hkey Hbuilt).
  now rewrite Hcreated.
Qed.

Lemma checkout_success_returns_logged_id_witness :
  create_checkout_session stub_stripe env_local karma_order =
    (Normal {| statusCode := 200;
               body := JsonBody (JObject
                         [("id", JString "cs_test_a1B2c3")]) |},
     [ SessionsCreate
         (session_params env_local (JString "karma") (JString "M")
            (JNumber 2500));
       ConsoleLog [ JString "✅ Checkout session created:";
                    JString "cs_test_a1B2c3" ] ]).
Proof.
  apply (checkout_success_returns_logged_id stub_stripe env_local
           karma_order
           (session_params env_local (JString "karma") (JString "M")
              (JNumber 2500))
           [("id", JString "cs_test_a1B2c3")]);
    reflexivity.
Defined.

(** X3: the checkout handler never lets an error escape: it always
    answers, with 200 or 500, after at most one call to the provider; the
    answer is 200 exactly when the credential is configured, the request
    could be built, and the provider created the session. *)
Theorem checkout_always_answers
    {Payload : Type} (stripe : Stripe Payload) (env : Env)
    (req_body : list (string * JsValue)) :
  let request := session_request env (get req_body "product")
                   (get req_body "size") (get req_body "price") in
  let run := create_checkout_session stripe env req_body in
  exists response,
    completion run = Normal response /\
    (statusCode response = 200 \/ statusCode response = 500) /\
    (List.length (provider_calls (trace run)) <= 1)%nat /\
    (statusCode response = 200 <->
       truthy (STRIPE_SECRET_KEY env) = true /\
       exists params session,
         request = Normal params /\
         checkout_sessions_create stripe params = inr session).
Proof.
  intros request run. unfold run.
  destruct (truthy (STRIPE_SECRET_KEY env)) eqn:Hkey.
  - destruct request as [params|e] eqn:Hrequest; unfold request in Hrequest.
    + rewrite (checkout_requesting stripe env req_body params Hkey Hrequest).
      destruct (checkout_sessions_create stripe params)
        as [error|session] eqn:Hcall;
        eexists; cbn [completion trace fst snd provider_calls List.length];
        (split; [reflexivity|]); cbn [statusCode res_json res_status_json].
      * split; [now right|]. split; [lia|].
        split; [discriminate|].
        intros [_ (params' & session & Hp & Hs)].
        injection Hp as <-. rewrite Hcall in Hs. discriminate Hs.
      * split; [now left|]. split; [lia|].
        split; [intros _; split; [reflexivity | now exists params, session]
               | reflexivity].
    + rewrite (checkout_throwing stripe env req_body e Hkey Hrequest).
      eexists. cbn [completion trace fst snd provider_calls List.length].
      split; [reflexivity|]. cbn [statusCode res_status_json].
      split; [now right|]. split; [lia|].
      split; [discriminate|].
      intros [_ (params & session & Hp & _)]. discriminate Hp.
  - rewrite (checkout_unconfigured stripe env req_body Hkey).
    eexists. cbn [completion trace fst snd provider_calls List.length].
    split; [reflexivity|]. cbn [statusCode res_status_json].
    split; [now right|]. split; [lia|].
    split; [discriminate|]. intros [Hk _]. discriminate Hk.
Qed.

(** X4: the request sent to the provider holds nothing of the credential:
    the SDK is built from the key, yet in two environments with configured
    keys and the same public domain and port the handler sends the same
    session request (or none), whatever the keys and webhook secrets are
    and whatever the two SDK instances answer. *)
Theorem checkout_request_ignores_credential_value
    {Payload : Type} (require_stripe : JsValue -> Stripe Payload)
    (env env' : Env) (req_body : list (string * JsValue)) :
  truthy (STRIPE_SECRET_KEY env) = true ->
  truthy (STRIPE_SECRET_KEY env') = true ->
  RAILWAY_PUBLIC_DOMAIN env = RAILWAY_PUBLIC_DOMAIN env' ->
  PORT_variable env = PORT_variable env' ->
  provider_calls
    (trace (post_create_checkout_session (app require_stripe env) req_body))
  = provider_calls
      (trace (post_create_checkout_session (app require_stripe env')
                req_body)).
Proof.
  intros Hkey Hkey' Hdomain Hport.
  cbn [app post_create_checkout_session].
  assert (Hbase : YOUR_DOMAIN env = YOUR_DOMAIN env')
    by (unfold YOUR_DOMAIN, PORT; now rewrite Hdomain, Hport).
  assert (Hrequest :
            session_request env (get req_body "product")
              (get req_body "size") (get req_body "price")
            = session_request env' (get req_body "product")
                (get req_body "size") (get req_body "price"))
    by (unfold session_request, session_object; now rewrite Hbase).
  destruct (session_request env' (get req_body "product")
              (get req_body "size") (get req_body "price"))
    as [params|e] eqn:Hbuilt'.
  - rewrite (provider_calls_requesting _ env req_body params Hkey Hrequest).
    now rewrite (provider_calls_requesting _ env' req_body params Hkey'
                   Hbuilt').
  - rewrite (provider_calls_throwing _ env req_body e Hkey Hrequest).
    now rewrite (provider_calls_throwing _ env' req_body e Hkey' Hbuilt').
Qed.

Lemma checkout_request_ignores_credential_value_witness :
  provider_calls
    (trace (post_create_checkout_session (app keyed_stripe env_live)
              karma_order))
  = provider_calls
      (trace (post_create_checkout_session (app keyed_stripe env_other_key)
                karma_order)).
Proof.
  apply (checkout_request_ignores_credential_value keyed_stripe
           env_live env_other_key karma_order);
    reflexivity.
Defined.

(** X5: of the request body only [product], [size] and [price] are read:
    two bodies that agree on these three give the same answer and the same
    effects, whatever else they hold. *)
Theorem checkout_reads_three_fields
    {Payload : Type} (stripe : Stripe Payload) (env : Env)
    (req_body req_body' : list (string * JsValue)) :
  get req_body "product" = get req_body' "product" ->
  get req_body "size" = get req_body' "size" ->
  get req_body "price" = get req_body' "price" ->
  create_checkout_session stripe env req_body
    = create_checkout_session stripe env req_body'.
Proof.
  intros Hproduct Hsize Hprice. unfold create_checkout_session.
  now rewrite Hproduct, Hsize, Hprice.
Qed.

Lemma checkout_reads_three_fields_witness :
  create_checkout_session stub_stripe env_live karma_order
    = create_checkout_session stub_stripe env_live
        [ ("currency", JString "eur"); ("price", JNumber 2500);
          ("quantity", JNumber 40); ("size", JString "M");
          ("product", JString "karma") ].
Proof.
  apply (checkout_reads_three_fields stub_stripe env_live); reflexivity.
Defined.

(** X6: a body that lacks [product], [size] and [price] is not turned
    away: with the credential configured the provider is still called,
    with the display name ["undefined - Size undefined"], an undefined
    unit amount and undefined product and size in the metadata. *)
Theorem checkout_missing_fields_forwarded
    {Payload : Type} (stripe : Stripe Payload) (env : Env)
    (req_body : list (string * JsValue)) :
  truthy (STRIPE_SECRET_KEY env) = true ->
  own req_body "product" = None ->
  own req_body "size" = None ->
  own req_body "price" = None ->
  exists params,
    provider_calls (trace (create_checkout_session stripe env req_body))
      = [params] /\
    display_name params = JString "undefined - Size undefined" /\
    unit_amount params = JUndefined /\
    field (field params "metadata") "product" = JUndefined /\
    field (field params "metadata") "size" = JUndefined.
Proof.
  intros Hkey Hproduct Hsize Hprice.
  assert (Hp : get req_body "product" = JUndefined)
    by (unfold get; now rewrite Hproduct).
  assert (Hs : get req_body "size" = JUndefined)
    by (unfold get; now rewrite Hsize).
  assert (Hv : get req_body "price" = JUndefined)
    by (unfold get; now rewrite Hprice).
  rewrite (checkout_calls_provider_once stripe env req_body
             "undefined" "undefined" Hkey);
    [| now rewrite Hp | now rewrite Hs].
  rewrite Hp, Hs, Hv.
  eexists. split; [reflexivity|]. repeat split.
Qed.

Lemma checkout_missing_fields_forwarded_witness :
  exists params,
    provider_calls
      (trace (create_checkout_session stub_stripe env_live
                [("items", JArray [JString "karma"])]))
      = [params] /\
    display_name params = JString "undefined - Size undefined" /\
    unit_amount params = JUndefined /\
    field (field params "metadata") "product" = JUndefined /\
    field (field params "metadata") "size" = JUndefined.
Proof.
  apply (checkout_missing_fields_forwarded stub_stripe env_live
           [("items", JArray [JString "karma"])]);
    reflexivity.
Defined.

(** X7: the catalog lookup converts its key to a string, so a product sent
    as a one-element array of a catalog identifier gets that product's
    display name, while the metadata carries the array as it came. *)
Theorem checkout_array_product_resolves
    {Payload : Type} (stripe : Stripe Payload) (env : Env)
    (req_body : list (string * JsValue)) (product size : string) :
  truthy (STRIPE_SECRET_KEY env) = true ->
  In product catalog_ids ->
  get req_body "product" = JArray [JString product] ->
  get req_body "size" = JString size ->
  exists display params,
    In (product, JString display) productNames /\
    provider_calls (trace (create_checkout_session stripe env req_body))
      = [params] /\
    display_name params = JString (display ++ " - Size " ++ size) /\
    field (field params "metadata") "product" = JArray [JString product].
Proof.
  intros Hkey Hin Hproduct Hsize.
  rewrite (checkout_calls_provider_once stripe env req_body product size
             Hkey);
    [| now rewrite Hproduct | now rewrite Hsize].
  rewrite Hproduct, Hsize.
  rewrite catalog_ids_listed in Hin. cbn [In] in Hin.
  repeat match type of Hin with
         | _ \/ _ => destruct Hin as [<-|Hin]
         end;
    try contradiction;
    do 2 eexists;
    (split; [|split; [reflexivity|split; reflexivity]]); cbn; tauto.
Qed.

Lemma checkout_array_product_resolves_witness :
  exists display params,
    In ("boss", JString display) productNames /\
    provider_calls
      (trace (create_checkout_session stub_stripe env_live
                [ ("product", JArray [JString "boss"]);
                  ("size", JString "S"); ("price", JNumber 1) ]))
      = [params] /\
    display_name params = JString (display ++ " - Size " ++ "S") /\
    field (field params "metadata") "product" = JArray [JString "boss"].
Proof.
  apply (checkout_array_product_resolves stub_stripe env_live
           [ ("product", JArray [JString "boss"]);
             ("size", JString "S"); ("price", JNumber 1) ]
           "boss" "S");
    first [reflexivity | cbn; tauto].
Defined.

(** X8: for catalog products and string sizes the display name tells the
    order apart: two requests with the same line-item name have the same
    product and the same size. *)
Theorem display_name_determines_order
    (env env' : Env) (product product' size size' : string)
    (price price' : JsValue) :
  In product catalog_ids ->
  In product' catalog_ids ->
  display_name (session_params env (JString product) (JString size) price)
    = display_name
        (session_params env' (JString product') (JString size') price') ->
  product = product' /\ size = size'.
Proof.
  intros Hin Hin' Hname.
  rewrite !session_params_display_name in Hname.
  rewrite catalog_ids_listed in Hin, Hin'. cbn [In] in Hin, Hin'.
  repeat match type of Hin with
         | _ \/ _ => destruct Hin as [<-|Hin]
         end;
    try contradiction;
    repeat match type of Hin' with
           | _ \/ _ => destruct Hin' as [<-|Hin']
           end;
    try contradiction;
    cbn in Hname; first [discriminate Hname | split; congruence].
Qed.

Lemma display_name_determines_order_witness :
  display_name (session_params env_live (JString "zero-dark") (JString "M")
                  (JNumber 2500))
    = display_name (session_params env_bare (JString "zero-dark")
                      (JString "M") (JNumber 1)) /\
  "zero-dark" = "zero-dark" /\ "M" = "M".
Proof.
  split; [reflexivity|].
  apply (display_name_determines_order env_live env_bare
           "zero-dark" "zero-dark" "M" "M" (JNumber 2500) (JNumber 1));
    first [reflexivity | cbn; tauto].
Defined.

(** X9: for an order whose request can be built, the health check tells
    whether checkout can work: it reports ["configured"] exactly when the
    order reaches the provider, and ["missing"] exactly when it is
    answered without one call. *)
Theorem health_predicts_checkout
    {Payload : Type} (stripe : Stripe Payload) (env : Env)
    (req_body : list (string * JsValue)) (params : JsValue) :
  session_request env (get req_body "product") (get req_body "size")
    (get req_body "price") = Normal params ->
  (health_report env = JString "configured" <->
     provider_calls (trace (create_checkout_session stripe env req_body))
       = [params]) /\
  (health_report env = JString "missing" <->
     provider_calls (trace (create_checkout_session stripe env req_body))
       = []).
Proof.
  intros Hbuilt. unfold health_report, health.
  destruct (truthy (STRIPE_SECRET_KEY env)) eqn:Hkey.
  - rewrite (provider_calls_requesting stripe env req_body params Hkey
               Hbuilt).
    cbn. repeat split; intros H; try reflexivity; discriminate H.
  - rewrite (checkout_unconfigured stripe env req_body Hkey).
    cbn. repeat split; intros H; try reflexivity; discriminate H.
Qed.

Lemma health_predicts_checkout_witness :
  (health_report env_live = JString "configured" <->
     provider_calls
       (trace (create_checkout_session stub_stripe env_live karma_order))
       = [session_params env_live (JString "karma") (JString "M")
            (JNumber 2500)]) /\
  (health_report env_live = JString "missing" <->
     provider_calls
       (trace (create_checkout_session stub_stripe env_live karma_order))
       = []).
Proof.
  apply (health_predicts_checkout stub_stripe env_live karma_order).
  reflexivity.
Defined.

(** X16: a product or size that cannot be converted to a string stops the
    order before the provider is called: the error thrown by the template
    literal is caught, logged on the error console, and answered with 500
    and its message. *)
Theorem checkout_unconvertible_order
    {Payload : Type} (stripe : Stripe Payload) (env : Env)
    (req_body : list (string * JsValue)) (e : JsError) :
  truthy (STRIPE_SECRET_KEY env) = true ->
  line_item_name (get req_body "product") (get req_body "size") = Throw e ->
  create_checkout_session stripe env req_body =
    (Normal {| statusCode := 500;
               body := JsonBody (JObject [("error", JString (message e))]) |},
     [ConsoleError "❌ Stripe error:" e]) /\
  provider_calls (trace (create_checkout_session stripe env req_body)) = [].
Proof.
  intros Hkey Hthrow.
  assert (Hrequest :
            session_request env (get req_body "product")
              (get req_body "size") (get req_body "price") = Throw e)
    by (unfold session_request; now rewrite Hthrow).
  rewrite (checkout_throwing stripe env req_body e Hkey Hrequest).
  split; reflexivity.
Qed.

Lemma checkout_unconvertible_order_witness :
  create_checkout_session stub_stripe env_live unconvertible_order =
    (Normal {| statusCode := 500;
               body := JsonBody (JObject
                 [("error",
                   JString "Cannot convert object to primitive value")]) |},
     [ConsoleError "❌ Stripe error:" cannot_convert]) /\
  provider_calls
    (trace (create_checkout_session stub_stripe env_live unconvertible_order))
    = [].
Proof.
  apply (checkout_unconvertible_order stub_stripe env_live
           unconvertible_order cannot_convert);
    reflexivity.
Defined.

(** ** Further properties of the webhook handler *)

(** X10: the webhook handler always answers, with 200 or 400, logs exactly
    one line and never calls the provider; the answer is 400 exactly when
    the secret is configured and the verification threw. *)
Theorem webhook_always_answers
    {Payload : Type} (stripe : Stripe Payload) (env : Env)
    (req : WebhookRequest Payload) :
  let run := webhook stripe env req in
  exists response line,
    completion run = Normal response /\
    trace run = [ConsoleLog line] /\
    provider_calls (trace run) = [] /\
    (statusCode response = 200 \/ statusCode response = 400) /\
    (statusCode response = 400 <->
       truthy (STRIPE_WEBHOOK_SECRET env) = true /\
       exists err,
         webhooks_constructEvent stripe (raw_body req)
           (env_value (own (headers req) "stripe-signature"))
           (env_value (STRIPE_WEBHOOK_SECRET env)) = inl err).
Proof.
  intros run. unfold run.
  destruct (truthy (STRIPE_WEBHOOK_SECRET env)) eqn:Hsecret.
  - destruct (webhooks_constructEvent stripe (raw_body req)
                (env_value (own (headers req) "stripe-signature"))
                (env_value (STRIPE_WEBHOOK_SECRET env)))
      as [err|event] eqn:Hverify.
    + rewrite (webhook_rejected stripe env req err Hsecret Hverify).
      do 2 eexists. cbn [completion trace fst snd provider_calls].
      split; [reflexivity|]. split; [reflexivity|]. split; [reflexivity|].
      cbn. split; [now right|].
      split; [intros _; split; [reflexivity | now exists err] | reflexivity].
    + rewrite (webhook_verified stripe env req event Hsecret Hverify).
      cbn [completion trace fst snd].
      destruct (dispatch_cases event) as [Hd|[Hd|Hd]]; rewrite Hd;
        do 2 eexists; cbn [snd provider_calls];
        (split; [reflexivity|]); (split; [reflexivity|]);
        (split; [reflexivity|]); cbn;
        (split; [now left|]);
        (split; [discriminate | intros [_ [err Herr]]; discriminate Herr]).
  - rewrite (webhook_unconfigured stripe env req Hsecret).
    do 2 eexists. cbn [completion trace fst snd provider_calls].
    split; [reflexivity|]. split; [reflexivity|]. split; [reflexivity|].
    cbn. split; [now left|].
    split; [discriminate | intros [Hs _]; discriminate Hs].
Qed.

(** X11: what a verified event logs depends on its kind, compared exactly:
    a completed checkout logs the session's id, total amount and customer
    details (undefined where the session has none), a succeeded payment
    intent logs a fixed line, and any other kind is logged as unhandled
    with its name. *)
Theorem webhook_logs_by_kind
    {Payload : Type} (stripe : Stripe Payload) (env : Env)
    (req : WebhookRequest Payload) (event : Event) :
  truthy (STRIPE_WEBHOOK_SECRET env) = true ->
  webhooks_constructEvent stripe (raw_body req)
    (env_value (own (headers req) "stripe-signature"))
    (env_value (STRIPE_WEBHOOK_SECRET env)) = inr event ->
  (ev_type event = "checkout.session.completed" ->
     trace (webhook stripe env req) =
       [ConsoleLog
          [ JString "🎉 Payment successful!";
            JObject [ ("id", get (data_object event) "id");
                      ("amount", get (data_object event) "amount_total");
                      ("customer",
                       get (data_object event) "customer_details") ] ]]) /\
  (ev_type event = "payment_intent.succeeded" ->
     trace (webhook stripe env req) =
       [ConsoleLog [JString "💰 Payment intent succeeded"]]) /\
  (ev_type event <> "checkout.session.completed" ->
   ev_type event <> "payment_intent.succeeded" ->
     trace (webhook stripe env req) =
       [ConsoleLog
          [JString ("ℹ️  Unhandled event type: " ++ ev_type event)]]).
Proof.
  intros Hsecret Hverify.
  rewrite (webhook_verified stripe env req event Hsecret Hverify).
  cbn [trace snd]. unfold dispatch.
  split; [|split].
  - intros ->. reflexivity.
  - intros ->. reflexivity.
  - intros Hc Hp.
    apply String.eqb_neq in Hc. apply String.eqb_neq in Hp.
    now rewrite Hc, Hp.
Qed.

Lemma webhook_logs_by_kind_witness :
  trace (webhook replaying_stripe env_live
           (signed_delivery "checkout.session.completed")) =
    [ConsoleLog
       [ JString "🎉 Payment successful!";
         JObject [ ("id", JString "cs_live_9z");
                   ("amount", JNumber 2500);
                   ("customer", JUndefined) ] ]].
Proof.
  apply (webhook_logs_by_kind replaying_stripe env_live
           (signed_delivery "checkout.session.completed")
           {| ev_type := "checkout.session.completed";
              data_object := paid_session |});
    reflexivity.
Defined.

(** X12: of the request the webhook handler reads the body and the
    [stripe-signature] header, and of the environment the webhook secret:
    deliveries that agree on these are handled alike, whatever other
    headers and variables say. *)
Theorem webhook_reads_signature_and_body
    {Payload : Type} (stripe : Stripe Payload) (env env' : Env)
    (req req' : WebhookRequest Payload) :
  STRIPE_WEBHOOK_SECRET env = STRIPE_WEBHOOK_SECRET env' ->
  raw_body req = raw_body req' ->
  own (headers req) "stripe-signature"
    = own (headers req') "stripe-signature" ->
  webhook stripe env req = webhook stripe env' req'.
Proof.
  intros Hsecret Hbody Hsig. unfold webhook.
  now rewrite Hsecret, Hbody, Hsig.
Qed.

Lemma webhook_reads_signature_and_body_witness :
  webhook stub_stripe env_live (signed_delivery "invoice.paid")
    = webhook stub_stripe
        {| STRIPE_SECRET_KEY := None;
           STRIPE_WEBHOOK_SECRET := Some "whsec_9";
           PORT_variable := None;
           RAILWAY_PUBLIC_DOMAIN := None |}
        {| headers := [ ("content-type", "application/json");
                        ("stripe-signature", "whsec_9.invoice.paid");
                        ("user-agent", "Stripe/1.0") ];
           raw_body := "invoice.paid" |}.
Proof.
  apply (webhook_reads_signature_and_body stub_stripe); reflexivity.
Defined.

(** ** The environment and the start-up banner *)

Lemma truthy_unset_blank (x : option string) :
  truthy (unset_blank x) = truthy x.
Proof.
  unfold unset_blank. destruct (truthy x) eqn:Hx; [exact Hx | reflexivity].
Qed.

Lemma unset_blank_truthy (x : option string) :
  truthy x = true -> unset_blank x = x.
Proof. intros Hx. unfold unset_blank. now rewrite Hx. Qed.

Lemma PORT_without_blanks (env : Env) : PORT (without_blanks env) = PORT env.
Proof.
  unfold PORT. cbn [PORT_variable without_blanks].
  rewrite truthy_unset_blank.
  destruct (truthy (PORT_variable env)) eqn:Hport; [|reflexivity].
  now rewrite (unset_blank_truthy _ Hport).
Qed.

Lemma YOUR_DOMAIN_without_blanks (env : Env) :
  YOUR_DOMAIN (without_blanks env) = YOUR_DOMAIN env.
Proof.
  unfold YOUR_DOMAIN. rewrite PORT_without_blanks.
  cbn [RAILWAY_PUBLIC_DOMAIN without_blanks].
  rewrite truthy_unset_blank.
  destruct (truthy (RAILWAY_PUBLIC_DOMAIN env)) eqn:Hdomain; [|reflexivity].
  now rewrite (unset_blank_truthy _ Hdomain).
Qed.

(** The ten lines of the banner. *)
Lemma listening_lines (env : Env) :
  listening env =
    (Normal tt,
     [ ConsoleLog [JString ""];
       ConsoleLog [JString "🚀 ========================================"];
       ConsoleLog
         [JString ("🚀 Server running on port " ++ text (PORT env))];
       ConsoleLog
         [JString ("🚀 Visit: http://localhost:" ++ text (PORT env))];
       ConsoleLog [JString "🚀 ========================================"];
       ConsoleLog [JString ""];
       ConsoleLog [JString "📋 Status:"];
       ConsoleLog
         [JString ("   Stripe: "
                   ++ (if truthy (STRIPE_SECRET_KEY env)
                       then "✅ Configured"
                       else "❌ Missing (add STRIPE_SECRET_KEY)"))];
       ConsoleLog
         [JString ("   Domain: "
                   ++ text (if truthy (RAILWAY_PUBLIC_DOMAIN env)
                            then env_value (RAILWAY_PUBLIC_DOMAIN env)
                            else JString "localhost"))];
       ConsoleLog [JString ""] ]).
Proof. reflexivity. Qed.

(** X13: a variable set to the empty string counts as unset, in every
    part of the server: the health check, the checkout handler, the
    webhook handler and the banner all behave as in the environment where
    the blank variables are absent. *)
Theorem blank_variables_read_as_unset
    {Payload : Type} (stripe : Stripe Payload) (env : Env)
    (req_body : list (string * JsValue)) (req : WebhookRequest Payload) :
  health (without_blanks env) = health env /\
  create_checkout_session stripe (without_blanks env) req_body
    = create_checkout_session stripe env req_body /\
  webhook stripe (without_blanks env) req = webhook stripe env req /\
  listening (without_blanks env) = listening env.
Proof.
  split; [|split; [|split]].
  - unfold health. cbn [STRIPE_SECRET_KEY without_blanks].
    now rewrite truthy_unset_blank.
  - unfold create_checkout_session, session_request, session_object.
    rewrite YOUR_DOMAIN_without_blanks.
    cbn [STRIPE_SECRET_KEY without_blanks].
    now rewrite truthy_unset_blank.
  - unfold webhook. cbn [STRIPE_WEBHOOK_SECRET without_blanks].
    rewrite truthy_unset_blank.
    destruct (truthy (STRIPE_WEBHOOK_SECRET env)) eqn:Hsecret;
      [|reflexivity].
    now rewrite (unset_blank_truthy _ Hsecret).
  - rewrite !listening_lines. rewrite PORT_without_blanks.
    cbn [STRIPE_SECRET_KEY RAILWAY_PUBLIC_DOMAIN without_blanks].
    rewrite !truthy_unset_blank.
    destruct (truthy (RAILWAY_PUBLIC_DOMAIN env)) eqn:Hdomain;
      [|reflexivity].
    now rewrite (unset_blank_truthy _ Hdomain).
Qed.

(** X14: the banner is ten lines and nothing else, and its Stripe line
    agrees with the health check: it says configured exactly when the
    health check reports ["configured"], and missing exactly when it
    reports ["missing"]. *)
Theorem listening_agrees_with_health (env : Env) :
  completion (listening env) = Normal tt /\
  List.length (trace (listening env)) = 10%nat /\
  provider_calls (trace (listening env)) = [] /\
  (In (ConsoleLog [JString "   Stripe: ✅ Configured"])
      (trace (listening env))
   <-> health_report env = JString "configured") /\
  (In (ConsoleLog [JString "   Stripe: ❌ Missing (add STRIPE_SECRET_KEY)"])
      (trace (listening env))
   <-> health_report env = JString "missing").
Proof.
  rewrite listening_lines. cbn [completion trace fst snd].
  split; [reflexivity|]. split; [reflexivity|]. split; [reflexivity|].
  unfold health_report, health.
  destruct (truthy (STRIPE_SECRET_KEY env)); cbn [In];
    split; split; intros H;
    try (cbn; tauto);
    try (cbn in H; discriminate H);
    exfalso;
    repeat match type of H with
           | _ \/ _ => destruct H as [H|H]
           | False => contradiction
           end;
    cbn in H; discriminate H.
Qed.

(** X15: without a public domain the banner's Visit line shows the very
    base URL the checkout handler builds its redirect URLs from, and the
    Domain line says localhost. *)
Theorem listening_shows_fallback_base (env : Env) :
  truthy (RAILWAY_PUBLIC_DOMAIN env) = false ->
  In (ConsoleLog [JString ("🚀 Visit: " ++ YOUR_DOMAIN env)])
     (trace (listening env)) /\
  In (ConsoleLog [JString "   Domain: localhost"]) (trace (listening env)).
Proof.
  intros Hdomain. rewrite listening_lines. cbn [trace snd].
  unfold YOUR_DOMAIN. rewrite Hdomain. cbn [In].
  split.
  - do 3 right. left. reflexivity.
  - do 8 right. left. reflexivity.
Qed.

Lemma listening_shows_fallback_base_witness :
  In (ConsoleLog [JString "🚀 Visit: http://localhost:8080"])
     (trace (listening env_local)) /\
  In (ConsoleLog [JString "   Domain: localhost"])
     (trace (listening env_local)).
Proof.
  apply (listening_shows_fallback_base env_local). reflexivity.
Defined.
